(** * Afrikaans Agent MCP server: a shallow embedding of [main.py]

    The server is a linear pipeline
    [Input] -> [Tool Node] -> [Cypher Query Node] -> [Output Stream].
    Every Python function of [main.py] is a definition below, under the
    name it has in the source.  Python values are the inductive [pyval];
    exceptions, logging and calls to the database driver are threaded
    through the monad [M]; the generator behind the event stream is the
    trace type [G]. *)

From Stdlib Require Import ZArith String Ascii List.
From stdpp Require Import base option list strings gmap.

Local Open Scope string_scope.
Local Open Scope list_scope.
#[local] Set Warnings "-register-all".

(** ** Python values *)

(** What a request body, a query parameter or a database field can hold.
    A dict keeps its insertion order, which is the order [json.dumps]
    writes; its keys are strings, as they are in parsed JSON and in driver
    records, and are pairwise distinct.  [PObject] stands for an instance
    of a class the JSON encoder does not know (the driver's temporal and
    spatial values, graph nodes, byte strings): its class name, and whether
    the class is hashable.  A float is kept as its [repr]. *)
Inductive pyval : Type :=
| PNone
| PBool (b : bool)
| PInt (n : Z)
| PFloat (repr : string)
| PStr (s : string)
| PList (items : list pyval)
| PDict (items : list (string * pyval))
| PObject (cls : string) (hashable : bool).

(** Exceptions, split the way [except Exception] splits them: instances of
    [Exception] (every error class) and the other [BaseException]s
    ([KeyboardInterrupt], [SystemExit]). *)
Inductive pyexc : Type :=
| Exception_ (cls : string)
| BaseException_ (cls : string).

Definition isinstance_Exception (e : pyexc) : bool :=
  match e with
  | Exception_ _ => true
  | BaseException_ _ => false
  end.

Definition TypeError : pyexc := Exception_ "TypeError".
Definition KeyError : pyexc := Exception_ "KeyError".
Definition AttributeError : pyexc := Exception_ "AttributeError".
Definition JSONDecodeError : pyexc := Exception_ "JSONDecodeError".

(** [hash(v)] succeeds: lists and dicts are unhashable. *)
Definition hashable (v : pyval) : bool :=
  match v with
  | PList _ | PDict _ => false
  | PObject _ h => h
  | _ => true
  end.

(** [d.get(key, default)] on a dict with string keys. *)
Fixpoint dict_get (items : list (string * pyval)) (key : string) (fallback : pyval)
  : pyval :=
  match items with
  | [] => fallback
  | (k, v) :: rest => if String.eqb k key then v else dict_get rest key fallback
  end.

(** [key in d]. *)
Definition dict_has (items : list (string * pyval)) (key : string) : bool :=
  existsb (fun kv => String.eqb (fst kv) key) items.

(** [body.get(key, default)] on whatever [request.json()] returned: only a
    dict has the method. *)
Definition py_get (body : pyval) (key : string) (fallback : pyval) : pyexc + pyval :=
  match body with
  | PDict items => inr (dict_get items key fallback)
  | _ => inl AttributeError
  end.

(** ** Effects *)

Inductive level : Type := INFO | ERROR.

(** The messages the module logs, by the call that writes them. *)
Inductive log_record : Type :=
| NodeInitialized
| QueryExecuted (query_prefix : string) (count : nat)
| QueryFailed (e : pyexc)
| ConnectionEstablished
| ConnectFailed (e : pyexc)
| MockMode
| ServerStarted
| ShutdownComplete
| InputReceived (query_type topic : pyval).

Inductive effect : Type :=
| Log (lvl : level) (r : log_record)
| DbRun (cypher_query : string) (parameters : list (string * pyval))
| DriverClose.

(** A computation: the effects it performed, in order, and how it ended. *)
Definition M (A : Type) : Type := list effect * (pyexc + A).

Definition raise {A} (e : pyexc) : M A := ([], inl e).
Definition perform (ef : effect) : M unit := ([ef], inr tt).
Definition lift {A} (r : pyexc + A) : M A := ([], r).

Definition trace {A} (m : M A) : list effect := fst m.
Definition outcome {A} (m : M A) : pyexc + A := snd m.

#[global] Instance M_ret : MRet M := fun A x => ([], inr x).

#[global] Instance M_bind : MBind M := fun A B f m =>
  match m with
  | (tr, inl e) => (tr, inl e)
  | (tr, inr x) => let '(tr', r) := f x in (tr ++ tr', r)
  end.

(** [try: body except Exception as e: handler(e)]. *)
Definition try_except {A} (body : M A) (handler : pyexc -> M A) : M A :=
  match body with
  | (tr, inl e) =>
      if isinstance_Exception e
      then let '(tr', r) := handler e in (tr ++ tr', r)
      else (tr, inl e)
  | (tr, inr x) => (tr, inr x)
  end.

Definition logger_info (r : log_record) : M unit := perform (Log INFO r).
Definition logger_error (r : log_record) : M unit := perform (Log ERROR r).

(** ** Neo4j connection node *)

(** What iterating a driver result does: it hands out records until it is
    exhausted, or until the connection fails in the middle. *)
Inductive cursor : Type :=
| Exhausted
| Broken (e : pyexc)
| Record_ (fields : list (string * pyval)) (rest : cursor).

Record Session : Type := {
  run : string -> list (string * pyval) -> pyexc + cursor;
  session_exit : option pyexc
}.

Record Driver : Type := {
  session : pyexc + Session;
  driver_close : option pyexc
}.

Module Neo4jNode.

Record t : Type := { driver : Driver }.

(** [__init__]. *)
Definition init (GraphDatabase_driver : string -> string -> string -> pyexc + Driver)
    (uri username password : string) : M t :=
  d ← lift (GraphDatabase_driver uri username password);
  logger_info NodeInitialized;;
  mret {| driver := d |}.

Definition close (self : t) : M unit :=
  perform DriverClose;;
  match driver_close (driver self) with
  | Some e => raise e
  | None => mret tt
  end.

(** [[dict(record) for record in result]]. *)
Fixpoint records_of (result : cursor) : pyexc + list pyval :=
  match result with
  | Exhausted => inr []
  | Broken e => inl e
  | Record_ fields rest =>
      match records_of rest with
      | inl e => inl e
      | inr records => inr (PDict fields :: records)
      end
  end.

(** [with self.driver.session() as session: body]. *)
Definition with_session {A} (self : t) (body : Session -> M A) : M A :=
  match session (driver self) with
  | inl e => raise e
  | inr s =>
      let '(tr, r) := body s in
      match session_exit s with
      | Some e => (tr, inl e)
      | None => (tr, r)
      end
  end.

(** The body of the [try] in [query]. *)
Definition query_body (self : t) (cypher_query : string)
    (parameters : option (list (string * pyval))) : M (list pyval) :=
  with_session self (fun s =>
    let params := default [] parameters in
    perform (DbRun cypher_query params);;
    result ← lift (run s cypher_query params);
    records ← lift (records_of result);
    logger_info (QueryExecuted (String.substring 0 50 cypher_query) (length records));;
    mret records).

Definition query (self : t) (cypher_query : string)
    (parameters : option (list (string * pyval))) : M (list pyval) :=
  try_except (query_body self cypher_query parameters)
    (fun e => logger_error (QueryFailed e);; mret []).

End Neo4jNode.

(** ** MCP tool definition node *)

Module MCPToolNode.

Definition get_tool_schema : pyval :=
  PDict [
    ("name", PStr "query_afrikaans_knowledge_graph");
    ("description", PStr "Query the Afrikaans knowledge graph for educational content, stories, vocabulary, and cultural information");
    ("inputSchema", PDict [
      ("type", PStr "object");
      ("properties", PDict [
        ("query_type", PDict [
          ("type", PStr "string");
          ("enum", PList [PStr "vocabulary"; PStr "story"; PStr "culture";
                          PStr "grammar"; PStr "general"]);
          ("description", PStr "Type of Afrikaans content to search for")
        ]);
        ("topic", PDict [
          ("type", PStr "string");
          ("description", PStr "Specific topic or question about Afrikaans")
        ]);
        ("difficulty", PDict [
          ("type", PStr "string");
          ("enum", PList [PStr "beginner"; PStr "intermediate"; PStr "advanced"]);
          ("default", PStr "beginner")
        ])
      ]);
      ("required", PList [PStr "query_type"; PStr "topic"])
    ])
  ].

End MCPToolNode.

(** ** Query processing node *)

Definition newline : string := String "010"%char EmptyString.

(** The text of a triple-quoted literal, given line by line. *)
Definition lines (l : list string) : string := String.concat newline l.

Module QueryProcessorNode.

Definition vocabulary_template : string :=
  lines [
    "";
    "                MATCH (w:Word {language: 'Afrikaans'})";
    "                WHERE toLower(w.english) CONTAINS toLower($topic) ";
    "                   OR toLower(w.afrikaans) CONTAINS toLower($topic)";
    "                RETURN w.afrikaans as afrikaans, w.english as english, w.pronunciation as pronunciation";
    "                LIMIT 10";
    "            "
  ].

Definition story_template : string :=
  lines [
    "";
    "                MATCH (s:Story)";
    "                WHERE toLower(s.title) CONTAINS toLower($topic) ";
    "                   OR toLower(s.content) CONTAINS toLower($topic)";
    "                RETURN s.title as title, s.content as content, s.difficulty as difficulty";
    "                LIMIT 5";
    "            "
  ].

Definition culture_template : string :=
  lines [
    "";
    "                MATCH (c:CulturalItem)";
    "                WHERE toLower(c.name) CONTAINS toLower($topic) ";
    "                   OR toLower(c.description) CONTAINS toLower($topic)";
    "                RETURN c.name as name, c.description as description, c.category as category";
    "                LIMIT 5";
    "            "
  ].

Definition grammar_template : string :=
  lines [
    "";
    "                MATCH (g:GrammarRule)";
    "                WHERE toLower(g.rule) CONTAINS toLower($topic) ";
    "                   OR toLower(g.explanation) CONTAINS toLower($topic)";
    "                RETURN g.rule as rule, g.explanation as explanation, g.examples as examples";
    "                LIMIT 5";
    "            "
  ].

Definition general_template : string :=
  lines [
    "";
    "                MATCH (n)";
    "                WHERE toLower(n.name) CONTAINS toLower($topic) ";
    "                   OR toLower(n.content) CONTAINS toLower($topic)";
    "                   OR toLower(n.description) CONTAINS toLower($topic)";
    "                RETURN labels(n)[0] as type, n.name as name, n.content as content, n.description as description";
    "                LIMIT 10";
    "            "
  ].

(** The dict literal [patterns]. *)
Definition patterns : gmap string string :=
  <["general" := general_template]>
  (<["grammar" := grammar_template]>
  (<["culture" := culture_template]>
  (<["story" := story_template]>
  (<["vocabulary" := vocabulary_template]> ∅)))).

(** [d[key]] for a string key. *)
Definition subscript (d : gmap string string) (key : string) : pyexc + string :=
  match d !! key with
  | Some v => inr v
  | None => inl KeyError
  end.

(** [d.get(key, default)] for a key of any type: the key is hashed
    first, and only a string can equal one of the keys. *)
Definition get (d : gmap string string) (key : pyval) (fallback : string)
  : pyexc + string :=
  if hashable key then
    match key with
    | PStr s => inr (default fallback (d !! s))
    | _ => inr fallback
    end
  else inl TypeError.

Definition generate_cypher_query (query_type topic difficulty : pyval)
  : pyexc + string :=
  match subscript patterns "general" with
  | inl e => inl e
  | inr general => get patterns query_type general
  end.

End QueryProcessorNode.

(** ** The event stream *)

(** A generator run to its end: the strings it yielded, in order, and the
    exception that ended it, if one did. *)
Definition G : Type := list string * option pyexc.

Definition yield (s : string) : G := ([s], None).
Definition gen_raise (e : pyexc) : G := ([], Some e).
Definition gen_skip : G := ([], None).

Definition gen_seq (g1 g2 : G) : G :=
  match g1 with
  | (out, Some e) => (out, Some e)
  | (out, None) => (out ++ fst g2, snd g2)
  end.

Notation "g1 ;;; g2" := (gen_seq g1 g2) (at level 100, g2 at level 200, right associativity).

(** [for i, x in enumerate(xs): body], counting from [i]. *)
Fixpoint for_enumerate_from (i : nat) (xs : list pyval) (body : nat -> pyval -> G) : G :=
  match xs with
  | [] => gen_skip
  | x :: rest => body i x ;;; for_enumerate_from (S i) rest body
  end.

Definition for_enumerate (xs : list pyval) (body : nat -> pyval -> G) : G :=
  for_enumerate_from 0 xs body.

(** The values [json.dumps] encodes: everything but the objects of
    classes it does not know, at any depth. *)
Fixpoint json_serializable (v : pyval) : bool :=
  match v with
  | PList items => forallb json_serializable items
  | PDict items => forallb (fun kv => json_serializable (snd kv)) items
  | PObject _ _ => false
  | _ => true
  end.

Definition status_processing (topic : pyval) : pyval :=
  PDict [("status", PStr "processing"); ("query", topic)].

Definition status_result (result : pyval) (i : nat) : pyval :=
  PDict [("status", PStr "result"); ("data", result); ("index", PInt (Z.of_nat i))].

Definition status_complete (total : nat) : pyval :=
  PDict [("status", PStr "complete"); ("total_results", PInt (Z.of_nat total))].

Section Stream.

(** The text the standard library's encoder writes for a value it
    encodes. *)
Variable encode : pyval -> string.

(** [json.dumps(v)]. *)
Definition json_dumps (v : pyval) : pyexc + string :=
  if json_serializable v then inr (encode v) else inl TypeError.

(** One server-sent event framing a JSON text. *)
Definition sse (text : string) : string :=
  "data: " +:+ text +:+ newline +:+ newline.

(** [yield f"data: {json.dumps(v)}\n\n"]. *)
Definition yield_data (v : pyval) : G :=
  match json_dumps v with
  | inl e => gen_raise e
  | inr text => yield (sse text)
  end.

(** The closure [generate_stream] of the handler, over its free
    variables [topic] and [results].  The pause after each result event
    changes no value and is left out. *)
Definition generate_stream (topic : pyval) (results : list pyval) : G :=
  yield_data (status_processing topic) ;;;
  for_enumerate results (fun i result => yield_data (status_result result i)) ;;;
  yield_data (status_complete (length results)).

End Stream.

(** ** SSE streaming node *)

Module SSEStreamNode.

(** [stream_response]: a generator of one event. *)
Definition stream_response (encode : pyval -> string) (data : pyval) : G :=
  yield_data encode data.

End SSEStreamNode.

(** ** The application *)

(** A streaming response holds the generator it will iterate, that is the
    variables the closure captured; nothing is encoded before the
    transport asks for the first event. *)
Record EventSourceResponse : Type := {
  stream_topic : pyval;
  stream_results : list pyval
}.

(** What the transport sends when it iterates the response to its end. *)
Definition iterate (encode : pyval -> string) (r : EventSourceResponse) : G :=
  generate_stream encode (stream_topic r) (stream_results r).

(** What [await request.json()] gives. *)
Inductive Request : Type :=
| InvalidJson
| JsonBody (body : pyval).

Definition request_json (request : Request) : pyexc + pyval :=
  match request with
  | InvalidJson => inl JSONDecodeError
  | JsonBody body => inr body
  end.

(** The module-level [neo4j_node = None]. *)
Definition neo4j_node_initial : option Neo4jNode.t := None.

(** The truth value of [os.getenv(...)]. *)
Definition env_truthy (v : option string) : bool :=
  match v with
  | Some s => negb (String.eqb s "")
  | None => false
  end.

(** [startup_event]: returns the new value of the global [neo4j_node]. *)
Definition startup_event (getenv : string -> option string)
    (GraphDatabase_driver : string -> string -> string -> pyexc + Driver)
  : M (option Neo4jNode.t) :=
  let neo4j_uri := getenv "NEO4J_URI" in
  let neo4j_username := getenv "NEO4J_USERNAME" in
  let neo4j_password := getenv "NEO4J_PASSWORD" in
  node ←
    (if env_truthy neo4j_uri && env_truthy neo4j_username && env_truthy neo4j_password
     then
       try_except
         (n ← Neo4jNode.init GraphDatabase_driver (default "" neo4j_uri)
                (default "" neo4j_username) (default "" neo4j_password);
          logger_info ConnectionEstablished;;
          mret (Some n))
         (fun e => logger_error (ConnectFailed e);; mret None)
     else
       logger_info MockMode;;
       mret None);
  logger_info ServerStarted;;
  mret node.

Definition shutdown_event (neo4j_node : option Neo4jNode.t) : M unit :=
  match neo4j_node with
  | Some n => Neo4jNode.close n
  | None => mret tt
  end;;
  logger_info ShutdownComplete.

Definition get_tools : pyval :=
  PDict [("tools", PList [MCPToolNode.get_tool_schema])].

Definition mock_row (topic query_type : pyval) : pyval :=
  PDict [("message", PStr "Neo4j not connected"); ("topic", topic);
         ("query_type", query_type)].

(** [Input Node]: the three [body.get] calls. *)
Definition parse_request (body : pyval) : pyexc + (pyval * pyval * pyval) :=
  match py_get body "query_type" (PStr "general") with
  | inl e => inl e
  | inr query_type =>
      match py_get body "topic" (PStr "") with
      | inl e => inl e
      | inr topic =>
          match py_get body "difficulty" (PStr "beginner") with
          | inl e => inl e
          | inr difficulty => inr (query_type, topic, difficulty)
          end
      end
  end.

(** [Database Query Node]: the [if neo4j_node: ... else: ...] of the
    handler. *)
Definition database_query_node (neo4j_node : option Neo4jNode.t)
    (cypher_query : string) (query_type topic difficulty : pyval)
  : M (list pyval) :=
  match neo4j_node with
  | Some node =>
      Neo4jNode.query node cypher_query
        (Some [("topic", topic); ("difficulty", difficulty)])
  | None => mret [mock_row topic query_type]
  end.

(** The handler up to the point where [results] is bound. *)
Definition query_results (neo4j_node : option Neo4jNode.t) (request : Request)
  : M (pyval * list pyval) :=
  body ← lift (request_json request);
  '(query_type, topic, difficulty) ← lift (parse_request body);
  logger_info (InputReceived query_type topic);;
  cypher_query ← lift (QueryProcessorNode.generate_cypher_query query_type topic difficulty);
  results ← database_query_node neo4j_node cypher_query query_type topic difficulty;
  mret (topic, results).

Definition query_knowledge_graph (neo4j_node : option Neo4jNode.t) (request : Request)
  : M EventSourceResponse :=
  '(topic, results) ← query_results neo4j_node request;
  mret {| stream_topic := topic; stream_results := results |}.

Definition health_check (neo4j_node : option Neo4jNode.t) : pyval :=
  PDict [("status", PStr "healthy");
         ("message", PStr "Afrikaans Agent MCP Server is running!");
         ("neo4j_connected", PBool (bool_decide (neo4j_node ≠ None)))].

(** ** Observations on values, and fixtures *)

(** The field names of an object, in order. *)
Definition dict_keys (v : pyval) : list string :=
  match v with
  | PDict items => map fst items
  | _ => []
  end.

(** [v[k1][k2]...] through nested dicts. *)
Fixpoint lookup_path (v : pyval) (path : list string) : option pyval :=
  match path with
  | [] => Some v
  | k :: rest =>
      match v with
      | PDict items =>
          if dict_has items k then lookup_path (dict_get items k PNone) rest else None
      | _ => None
      end
  end.

(** A connected node whose session opens and closes cleanly and whose
    every query produces [c]. *)
Definition node_returning (c : cursor) : Neo4jNode.t :=
  {| Neo4jNode.driver :=
       {| session := inr {| run := fun _ _ => inr c; session_exit := None |};
          driver_close := None |} |}.

(** A connected node whose connection drops once the first record has been
    read. *)
Definition dropping_node : Neo4jNode.t :=
  node_returning
    (Record_ [("afrikaans", PStr "hallo")] (Broken (Exception_ "ServiceUnavailable"))).

(** A row as the driver gives it for a node property holding a date. *)
Definition date_row : pyval :=
  PDict [("title", PStr "Die Groot Trek"); ("content", PObject "neo4j.time.Date" true)].

Definition word_row : pyval :=
  PDict [("afrikaans", PStr "hallo"); ("english", PStr "hello");
         ("pronunciation", PStr "hah-loh")].

(** The request of the streaming scenario. *)
Definition scenario_request : Request :=
  JsonBody (PDict [("query_type", PStr "vocabulary"); ("topic", PStr "hello")]).

(** A driver result that hands out the given records and is then
    exhausted. *)
Fixpoint cursor_of (records : list (list (string * pyval))) : cursor :=
  match records with
  | [] => Exhausted
  | fields :: rest => Record_ fields (cursor_of rest)
  end.

(** [isinstance(v, dict)]. *)
Definition is_dict (v : pyval) : bool :=
  match v with
  | PDict _ => true
  | _ => false
  end.

(** [isinstance(v, str)]. *)
Definition is_str (v : pyval) : bool :=
  match v with
  | PStr _ => true
  | _ => false
  end.



(** [needle in haystack], on strings. *)
Fixpoint string_contains (needle haystack : string) : bool :=
  String.prefix needle haystack
  || match haystack with
     | EmptyString => false
     | String _ rest => string_contains needle rest
     end.

(** The values of [patterns], in the order of the literal. *)
Definition templates : list string :=
  [QueryProcessorNode.vocabulary_template; QueryProcessorNode.story_template;
   QueryProcessorNode.culture_template; QueryProcessorNode.grammar_template;
   QueryProcessorNode.general_template].

(** The environment variables [startup_event] reads. *)
Definition credentials : list string :=
  ["NEO4J_URI"; "NEO4J_USERNAME"; "NEO4J_PASSWORD"].

(** The events of a stream that runs to its end: processing, one result
    per row with its index, complete with the number of rows. *)
Definition expected_events (encode : pyval -> string) (topic : pyval)
    (results : list pyval) : list string :=
  sse (encode (status_processing topic))
    :: imap (fun i r => sse (encode (status_result r i))) results
    ++ [sse (encode (status_complete (length results)))].

(** The parameters the handler binds for a body. *)
Definition bound_parameters (items : list (string * pyval)) : list (string * pyval) :=
  [("topic", dict_get items "topic" (PStr ""));
   ("difficulty", dict_get items "difficulty" (PStr "beginner"))].

(** An environment with the three credentials set. *)
Definition env_complete (name : string) : option string :=
  if String.eqb name "NEO4J_URI" then Some "bolt://localhost:7687"
  else if String.eqb name "NEO4J_USERNAME" then Some "neo4j"
  else if String.eqb name "NEO4J_PASSWORD" then Some "secret"
  else None.

(** The same environment with the password set to the empty string. *)
Definition env_empty_password (name : string) : option string :=
  if String.eqb name "NEO4J_PASSWORD" then Some "" else env_complete name.

(** A driver whose sessions return one vocabulary record. *)
Definition one_word_driver : Driver :=
  Neo4jNode.driver (node_returning (cursor_of [[("afrikaans", PStr "hallo")]])).

(** A connected node whose session cannot be closed cleanly. *)
Definition unclosable_node : Neo4jNode.t :=
  {| Neo4jNode.driver :=
       {| session :=
            inr {| run := fun _ _ => inr (cursor_of [[("afrikaans", PStr "hallo")]]);
                   session_exit := Some (Exception_ "SessionExpired") |};
          driver_close := None |} |}.

(** A connected node whose driver cannot open a session. *)
Definition unreachable_node : Neo4jNode.t :=
  {| Neo4jNode.driver :=
       {| session := inl (Exception_ "ServiceUnavailable");
          driver_close := None |} |}.

(** ** Lemmas on the monad and on generators *)

Lemma gen_seq_yield s g : (yield s ;;; g) = (s :: fst g, snd g).
Proof. reflexivity. Qed.

Lemma gen_seq_raise e g : (gen_raise e ;;; g) = ([], Some e).
Proof. reflexivity. Qed.

Lemma gen_seq_done out g : ((out, None) ;;; g) = (out ++ fst g, snd g).
Proof. reflexivity. Qed.

Lemma yield_data_ok encode v :
  json_serializable v = true → yield_data encode v = yield (sse (encode v)).
Proof. intros Hv. unfold yield_data, json_dumps. by rewrite Hv. Qed.

Lemma yield_data_fails encode v :
  json_serializable v = false → yield_data encode v = gen_raise TypeError.
Proof. intros Hv. unfold yield_data, json_dumps. by rewrite Hv. Qed.

Lemma status_result_serializable r i :
  json_serializable (status_result r i) = json_serializable r.
Proof. simpl. by rewrite andb_true_r. Qed.

(** The loop over encodable rows yields one frame per row, numbered from
    the starting index, and ends normally. *)
Lemma for_enumerate_from_serializable encode results : ∀ i,
  forallb json_serializable results = true →
  for_enumerate_from i results (λ j r, yield_data encode (status_result r j))
  = (imap (λ j r, sse (encode (status_result r (i + j)))) results, None).
Proof.
  induction results as [|r rest IH]; intros i Hall; [done|].
  simpl in Hall. apply andb_true_iff in Hall as [Hr Hrest].
  cbn [for_enumerate_from].
  rewrite yield_data_ok by (by rewrite status_result_serializable).
  rewrite gen_seq_yield, (IH (S i) Hrest). cbn [fst snd imap].
  rewrite Nat.add_0_r. do 2 f_equal.
  apply imap_ext. intros j x _. simpl. by rewrite Nat.add_succ_r.
Qed.

(** The loop stops at the first row the encoder refuses. *)
Lemma for_enumerate_from_refused encode good bad rest : ∀ i,
  forallb json_serializable good = true →
  json_serializable bad = false →
  for_enumerate_from i (good ++ bad :: rest)
    (λ j r, yield_data encode (status_result r j))
  = (imap (λ j r, sse (encode (status_result r (i + j)))) good, Some TypeError).
Proof.
  induction good as [|r good IH]; intros i Hall Hbad.
  - cbn [app for_enumerate_from].
    rewrite yield_data_fails by (by rewrite status_result_serializable).
    by rewrite gen_seq_raise.
  - simpl in Hall. apply andb_true_iff in Hall as [Hr Hgood].
    cbn [app for_enumerate_from].
    rewrite yield_data_ok by (by rewrite status_result_serializable).
    rewrite gen_seq_yield, (IH (S i) Hgood Hbad). cbn [fst snd imap].
    rewrite Nat.add_0_r. do 2 f_equal.
    apply imap_ext. intros j x _. simpl. by rewrite Nat.add_succ_r.
Qed.

Lemma generate_stream_serializable encode topic results :
  json_serializable topic = true →
  forallb json_serializable results = true →
  generate_stream encode topic results
  = (sse (encode (status_processing topic))
       :: imap (λ i r, sse (encode (status_result r i))) results
       ++ [sse (encode (status_complete (length results)))], None).
Proof.
  intros Htopic Hall. unfold generate_stream, for_enumerate.
  rewrite yield_data_ok by (simpl; by rewrite Htopic).
  rewrite gen_seq_yield, for_enumerate_from_serializable by done.
  rewrite gen_seq_done. by rewrite yield_data_ok.
Qed.

Lemma generate_stream_refused encode topic good bad rest :
  json_serializable topic = true →
  forallb json_serializable good = true →
  json_serializable bad = false →
  generate_stream encode topic (good ++ bad :: rest)
  = (sse (encode (status_processing topic))
       :: imap (λ i r, sse (encode (status_result r i))) good, Some TypeError).
Proof.
  intros Htopic Hall Hbad. unfold generate_stream, for_enumerate.
  rewrite yield_data_ok by (simpl; by rewrite Htopic).
  by rewrite gen_seq_yield, for_enumerate_from_refused.
Qed.

(** ** The event emitter *)

(** C1, as amended: for every topic and every finite list of result rows
    that the JSON encoder accepts, the emitter ends normally after exactly
    [len(results) + 2] events: the processing event, then one result event
    per row in list order carrying the row and its zero-based index, then
    the complete event carrying the number of rows. *)
Theorem emitter_events_of_encodable_rows
    (encode : pyval → string) (topic : pyval) (results : list pyval) :
  json_serializable topic = true →
  forallb json_serializable results = true →
  generate_stream encode topic results
  = (sse (encode (status_processing topic))
       :: imap (λ i r, sse (encode (status_result r i))) results
       ++ [sse (encode (status_complete (length results)))], None)
  ∧ length (fst (generate_stream encode topic results)) = length results + 2
  ∧ (∀ i r, results !! i = Some r →
       fst (generate_stream encode topic results) !! S i
       = Some (sse (encode (status_result r i)))).
Proof.
  intros Htopic Hall.
  rewrite (generate_stream_serializable encode topic results Htopic Hall).
  cbn [fst]. split; [done|]. split.
  - cbn [length]. rewrite length_app, length_imap. simpl. lia.
  - intros i r Hi. rewrite lookup_cons. cbn [Nat.pred].
    rewrite lookup_app_l by (rewrite length_imap; by eapply lookup_lt_Some).
    by rewrite list_lookup_imap, Hi.
Qed.

(** Two vocabulary rows give four events. *)
Lemma emitter_events_of_encodable_rows_witness :
  generate_stream (λ _, "{}") (PStr "hello") [word_row; word_row]
  = (sse "{}" :: imap (λ _ _, sse "{}") [word_row; word_row] ++ [sse "{}"], None)
  ∧ length (fst (generate_stream (λ _, "{}") (PStr "hello") [word_row; word_row]))
    = length [word_row; word_row] + 2
  ∧ (∀ i r, [word_row; word_row] !! i = Some r →
       fst (generate_stream (λ _, "{}") (PStr "hello") [word_row; word_row]) !! S i
       = Some (sse "{}")).
Proof.
  apply (emitter_events_of_encodable_rows (λ _, "{}") (PStr "hello")
           [word_row; word_row]); reflexivity.
Defined.

(** C1 fails as stated: a row holding a value the encoder refuses ends the
    stream with [TypeError] after the processing event alone, whatever the
    encoder writes for the other values. *)
Lemma emitter_stops_at_unencodable_row :
  (∀ encode,
     generate_stream encode (PStr "trek") [date_row; word_row]
     = ([sse (encode (status_processing (PStr "trek")))], Some TypeError))
  ∧ (∀ encode,
       length (fst (generate_stream encode (PStr "trek") [date_row; word_row]))
       ≠ length [date_row; word_row] + 2).
Proof.
  assert (H : ∀ encode,
    generate_stream encode (PStr "trek") [date_row; word_row]
    = ([sse (encode (status_processing (PStr "trek")))], Some TypeError)).
  { intros encode.
    exact (generate_stream_refused encode (PStr "trek") [] date_row [word_row]
             eq_refl eq_refl eq_refl). }
  split; [exact H|]. intros encode. rewrite H. simpl. lia.
Qed.

(** ** The template selector *)

Lemma subscript_general :
  QueryProcessorNode.subscript QueryProcessorNode.patterns "general"
  = inr QueryProcessorNode.general_template.
Proof.
  unfold QueryProcessorNode.subscript, QueryProcessorNode.patterns.
  by rewrite lookup_insert_eq.
Qed.

Lemma generate_cypher_query_str s topic difficulty :
  QueryProcessorNode.generate_cypher_query (PStr s) topic difficulty
  = inr (default QueryProcessorNode.general_template
           (QueryProcessorNode.patterns !! s)).
Proof.
  unfold QueryProcessorNode.generate_cypher_query. by rewrite subscript_general.
Qed.

(** C2: on strings the selector is total; each of the five query types
    gives its own template and every other string the general one; the
    call performs no effect. *)
Theorem select_template_total (s : string) (topic difficulty : pyval) :
  QueryProcessorNode.generate_cypher_query (PStr s) topic difficulty
  = inr (if decide (s = "vocabulary") then QueryProcessorNode.vocabulary_template
         else if decide (s = "story") then QueryProcessorNode.story_template
         else if decide (s = "culture") then QueryProcessorNode.culture_template
         else if decide (s = "grammar") then QueryProcessorNode.grammar_template
         else QueryProcessorNode.general_template)
  ∧ trace (lift (QueryProcessorNode.generate_cypher_query (PStr s) topic difficulty))
    = [].
Proof.
  split; [|done]. rewrite generate_cypher_query_str. f_equal.
  unfold QueryProcessorNode.patterns.
  repeat case_decide; subst; try by simplify_map_eq.
  destruct (decide (s = "general")) as [->|]; by simplify_map_eq.
Qed.

(** C9: the query string depends on [query_type] alone; neither [topic]
    nor [difficulty] flows into the result, be it a template or an error. *)
Theorem query_string_ignores_topic_and_difficulty
    (query_type topic1 difficulty1 topic2 difficulty2 : pyval) :
  QueryProcessorNode.generate_cypher_query query_type topic1 difficulty1
  = QueryProcessorNode.generate_cypher_query query_type topic2 difficulty2.
Proof. reflexivity. Qed.

(** ** The query executor *)

(** What the body of the [try] does, by what the driver does: opening the
    session, running the query, iterating the result or closing the
    session can each raise. *)
Lemma query_body_outcome self q parameters :
  outcome (Neo4jNode.query_body self q parameters)
  = match session (Neo4jNode.driver self) with
    | inl e => inl e
    | inr s =>
        match session_exit s with
        | Some e => inl e
        | None =>
            match run s q (default [] parameters) with
            | inl e => inl e
            | inr result => Neo4jNode.records_of result
            end
        end
    end.
Proof.
  unfold Neo4jNode.query_body, Neo4jNode.with_session.
  destruct (session (Neo4jNode.driver self)) as [e|s]; [done|].
  cbn. destruct (run s q (default [] parameters)) as [e|result].
  - by destruct (session_exit s).
  - destruct (Neo4jNode.records_of result); by destruct (session_exit s).
Qed.

(** No error escapes [query]: what it lets through is not an instance of
    [Exception]. *)
Lemma query_raises_no_error self q parameters e :
  outcome (Neo4jNode.query self q parameters) = inl e →
  isinstance_Exception e = false.
Proof.
  unfold Neo4jNode.query, try_except.
  destruct (Neo4jNode.query_body self q parameters) as [tr [e'|rows]]; [|done].
  destruct (isinstance_Exception e') eqn:He'; cbn; [done|].
  by intros [= <-].
Qed.

(** What [query] returns is empty or every record of the result. *)
Lemma query_returns_nothing_or_all self q parameters rows :
  outcome (Neo4jNode.query self q parameters) = inr rows →
  rows = [] ∨ outcome (Neo4jNode.query_body self q parameters) = inr rows.
Proof.
  unfold Neo4jNode.query, try_except.
  destruct (Neo4jNode.query_body self q parameters) as [tr [e'|rows']].
  - destruct (isinstance_Exception e'); cbn; [|done]. intros [= <-]. by left.
  - cbn. intros [= <-]. by right.
Qed.

(** C3: when the execution of a query raises an error, at whatever stage,
    [query] logs it and returns the empty list: the error is not raised
    again, no record read before the failure is returned, and the caller
    gets the value it gets from a query that matched nothing. *)
Theorem query_swallows_errors
    (self : Neo4jNode.t) (cypher_query : string)
    (parameters : option (list (string * pyval))) (e : pyexc) :
  outcome (Neo4jNode.query_body self cypher_query parameters) = inl e →
  isinstance_Exception e = true →
  Neo4jNode.query self cypher_query parameters
  = (trace (Neo4jNode.query_body self cypher_query parameters)
       ++ [Log ERROR (QueryFailed e)], inr [])
  ∧ outcome (Neo4jNode.query self cypher_query parameters)
    = outcome (Neo4jNode.query (node_returning Exhausted) cypher_query parameters).
Proof.
  intros Hbody He. unfold Neo4jNode.query at 1 2, try_except.
  destruct (Neo4jNode.query_body self cypher_query parameters) as [tr r].
  cbn in Hbody. subst r. by rewrite He.
Qed.

(** The connection drops after the first record has been read. *)
Lemma query_swallows_errors_witness :
  Neo4jNode.query dropping_node QueryProcessorNode.vocabulary_template
    (Some [("topic", PStr "hello")])
  = (trace (Neo4jNode.query_body dropping_node QueryProcessorNode.vocabulary_template
              (Some [("topic", PStr "hello")]))
       ++ [Log ERROR (QueryFailed (Exception_ "ServiceUnavailable"))], inr [])
  ∧ outcome (Neo4jNode.query dropping_node QueryProcessorNode.vocabulary_template
               (Some [("topic", PStr "hello")]))
    = outcome (Neo4jNode.query (node_returning Exhausted)
                 QueryProcessorNode.vocabulary_template
                 (Some [("topic", PStr "hello")])).
Proof.
  apply (query_swallows_errors dropping_node
           QueryProcessorNode.vocabulary_template
           (Some [("topic", PStr "hello")])
           (Exception_ "ServiceUnavailable")); reflexivity.
Defined.

(** ** The request handler *)

Lemma generate_cypher_query_hashable query_type topic difficulty :
  hashable query_type = true →
  ∃ q, QueryProcessorNode.generate_cypher_query query_type topic difficulty = inr q.
Proof.
  intros Hh. unfold QueryProcessorNode.generate_cypher_query.
  rewrite subscript_general. unfold QueryProcessorNode.get. rewrite Hh.
  destruct query_type; eauto.
Qed.

Lemma generate_cypher_query_unhashable query_type topic difficulty :
  hashable query_type = false →
  QueryProcessorNode.generate_cypher_query query_type topic difficulty = inl TypeError.
Proof.
  intros Hh. unfold QueryProcessorNode.generate_cypher_query.
  rewrite subscript_general. unfold QueryProcessorNode.get. by rewrite Hh.
Qed.

Lemma parse_request_dict items :
  parse_request (PDict items)
  = inr (dict_get items "query_type" (PStr "general"),
         dict_get items "topic" (PStr ""),
         dict_get items "difficulty" (PStr "beginner")).
Proof. reflexivity. Qed.

Lemma dict_get_missing items key fallback :
  dict_has items key = false → dict_get items key fallback = fallback.
Proof.
  induction items as [|[k v] rest IH]; [done|]. cbn.
  destruct (String.eqb k key); [done|]. exact IH.
Qed.

(** The handler on an object body, without a database: one log line, then
    either the diagnostic row or the error of the template lookup. *)
Lemma query_results_mock items :
  query_results None (JsonBody (PDict items))
  = ([Log INFO (InputReceived (dict_get items "query_type" (PStr "general"))
                  (dict_get items "topic" (PStr "")))],
     if hashable (dict_get items "query_type" (PStr "general"))
     then inr (dict_get items "topic" (PStr ""),
               [mock_row (dict_get items "topic" (PStr ""))
                  (dict_get items "query_type" (PStr "general"))])
     else inl TypeError).
Proof.
  unfold query_results. cbn.
  destruct (hashable (dict_get items "query_type" (PStr "general"))) eqn:Hh.
  - destruct (generate_cypher_query_hashable _
                (dict_get items "topic" (PStr ""))
                (dict_get items "difficulty" (PStr "beginner")) Hh) as [q Hq].
    by rewrite Hq.
  - by rewrite generate_cypher_query_unhashable.
Qed.

(** With a database, the handler on an object body with a hashable query
    type ends the way [query] ends. *)
Lemma query_results_connected node items :
  hashable (dict_get items "query_type" (PStr "general")) = true →
  ∃ q,
    QueryProcessorNode.generate_cypher_query
      (dict_get items "query_type" (PStr "general"))
      (dict_get items "topic" (PStr ""))
      (dict_get items "difficulty" (PStr "beginner")) = inr q
    ∧ outcome (query_results (Some node) (JsonBody (PDict items)))
      = match outcome (Neo4jNode.query node q
                         (Some [("topic", dict_get items "topic" (PStr ""));
                                ("difficulty", dict_get items "difficulty" (PStr "beginner"))]))
        with
        | inl e => inl e
        | inr results => inr (dict_get items "topic" (PStr ""), results)
        end.
Proof.
  intros Hh.
  destruct (generate_cypher_query_hashable _
              (dict_get items "topic" (PStr ""))
              (dict_get items "difficulty" (PStr "beginner")) Hh) as [q Hq].
  exists q. split; [done|].
  unfold query_results. cbn. rewrite Hq.
  by destruct (Neo4jNode.query node q _) as [tr [e|rows]].
Qed.

Lemma query_knowledge_graph_outcome node request :
  outcome (query_knowledge_graph node request)
  = match outcome (query_results node request) with
    | inl e => inl e
    | inr (topic, results) =>
        inr {| stream_topic := topic; stream_results := results |}
    end.
Proof.
  unfold query_knowledge_graph.
  by destruct (query_results node request) as [tr [e|[topic results]]].
Qed.

(** C4: without a database connection the query step returns the
    one-element list holding the diagnostic row, whatever the query type,
    topic, difficulty and query string, and performs no effect; no request
    makes the handler run a database query. *)
Theorem no_database_gives_diagnostic_row
    (cypher_query : string) (query_type topic difficulty : pyval) :
  database_query_node None cypher_query query_type topic difficulty
  = ([], inr [mock_row topic query_type])
  ∧ (∀ request q p, DbRun q p ∉ trace (query_results None request)).
Proof.
  split; [done|]. intros [|body] q p.
  - cbn. apply not_elem_of_nil.
  - destruct body; try (cbn; apply not_elem_of_nil).
    rewrite query_results_mock. cbn [trace fst].
    intros Hin. apply list_elem_of_singleton in Hin. discriminate.
Qed.

(** C10: without a database, a request whose body is an object (with a
    query type that selects a template) gets the single row
    [{"message": "Neo4j not connected", "topic": t, "query_type": q}],
    where [t] and [q] are the body's topic and query type, or their
    defaults when the body lacks them. *)
Theorem diagnostic_row_fields (items : list (string * pyval)) :
  hashable (dict_get items "query_type" (PStr "general")) = true →
  outcome (query_results None (JsonBody (PDict items)))
  = inr (dict_get items "topic" (PStr ""),
         [PDict [("message", PStr "Neo4j not connected");
                 ("topic", dict_get items "topic" (PStr ""));
                 ("query_type", dict_get items "query_type" (PStr "general"))]])
  ∧ outcome (query_knowledge_graph None (JsonBody (PDict items)))
    = inr {| stream_topic := dict_get items "topic" (PStr "");
             stream_results :=
               [PDict [("message", PStr "Neo4j not connected");
                       ("topic", dict_get items "topic" (PStr ""));
                       ("query_type", dict_get items "query_type" (PStr "general"))]] |}.
Proof.
  intros Hh. rewrite query_knowledge_graph_outcome, query_results_mock.
  cbn [outcome snd]. by rewrite Hh.
Qed.

(** A body that names a topic and leaves the query type out. *)
Lemma diagnostic_row_fields_witness :
  outcome (query_results None (JsonBody (PDict [("topic", PStr "braai")])))
  = inr (PStr "braai",
         [PDict [("message", PStr "Neo4j not connected");
                 ("topic", PStr "braai");
                 ("query_type", PStr "general")]])
  ∧ outcome (query_knowledge_graph None (JsonBody (PDict [("topic", PStr "braai")])))
    = inr {| stream_topic := PStr "braai";
             stream_results :=
               [PDict [("message", PStr "Neo4j not connected");
                       ("topic", PStr "braai");
                       ("query_type", PStr "general")]] |}.
Proof. exact (diagnostic_row_fields [("topic", PStr "braai")] eq_refl). Defined.

(** C6: the vocabulary request about "hello", sent while no database is
    configured, is answered by a stream of exactly three events, the last
    being [{"status": "complete", "total_results": 1}]. *)
Theorem scenario_stream_has_three_events (encode : pyval → string) :
  ∃ response,
    outcome (query_knowledge_graph neo4j_node_initial scenario_request) = inr response
    ∧ iterate encode response
      = ([sse (encode (PDict [("status", PStr "processing"); ("query", PStr "hello")]));
          sse (encode (PDict [("status", PStr "result");
                              ("data", mock_row (PStr "hello") (PStr "vocabulary"));
                              ("index", PInt 0)]));
          sse (encode (PDict [("status", PStr "complete"); ("total_results", PInt 1)]))],
         None)
    ∧ length (fst (iterate encode response)) = 3
    ∧ last (fst (iterate encode response))
      = Some (sse (encode (PDict [("status", PStr "complete");
                                  ("total_results", PInt 1)]))).
Proof. eexists. split; [reflexivity|]. by split. Qed.

(** C7, as amended: a request whose body is a JSON object is served
    whenever its query type is hashable, that is anything but an array or
    an object.  A field the body lacks takes its default ([general], the
    empty string, [beginner]); a field it has is used as it is.  The
    handler then returns the streaming response, and no error leaves it. *)
Theorem object_body_is_served
    (node : option Neo4jNode.t) (items : list (string * pyval)) :
  hashable (dict_get items "query_type" (PStr "general")) = true →
  parse_request (PDict items)
  = inr (dict_get items "query_type" (PStr "general"),
         dict_get items "topic" (PStr ""),
         dict_get items "difficulty" (PStr "beginner"))
  ∧ (dict_has items "query_type" = false →
       dict_get items "query_type" (PStr "general") = PStr "general")
  ∧ (dict_has items "topic" = false → dict_get items "topic" (PStr "") = PStr "")
  ∧ (dict_has items "difficulty" = false →
       dict_get items "difficulty" (PStr "beginner") = PStr "beginner")
  ∧ ((∃ response,
        outcome (query_knowledge_graph node (JsonBody (PDict items))) = inr response
        ∧ stream_topic response = dict_get items "topic" (PStr ""))
     ∨ (∃ e,
          outcome (query_knowledge_graph node (JsonBody (PDict items))) = inl e
          ∧ isinstance_Exception e = false ∧ node ≠ None)).
Proof.
  intros Hh. split; [done|]. repeat (split; [apply dict_get_missing|]).
  rewrite query_knowledge_graph_outcome. destruct node as [node|].
  - destruct (query_results_connected node items Hh) as (q & _ & ->).
    destruct (outcome (Neo4jNode.query node q _)) as [e|results] eqn:Hq.
    + right. exists e. repeat split; [|done].
      by eapply query_raises_no_error.
    + left. by eexists.
  - left. rewrite query_results_mock. cbn [outcome snd]. rewrite Hh. by eexists.
Qed.

(** The empty object: every field takes its default. *)
Lemma object_body_is_served_witness :
  parse_request (PDict []) = inr (PStr "general", PStr "", PStr "beginner")
  ∧ (dict_has [] "query_type" = false →
       dict_get [] "query_type" (PStr "general") = PStr "general")
  ∧ (dict_has [] "topic" = false → dict_get [] "topic" (PStr "") = PStr "")
  ∧ (dict_has [] "difficulty" = false →
       dict_get [] "difficulty" (PStr "beginner") = PStr "beginner")
  ∧ ((∃ response,
        outcome (query_knowledge_graph None (JsonBody (PDict []))) = inr response
        ∧ stream_topic response = PStr "")
     ∨ (∃ e,
          outcome (query_knowledge_graph None (JsonBody (PDict []))) = inl e
          ∧ isinstance_Exception e = false ∧ @None Neo4jNode.t ≠ None)).
Proof. exact (object_body_is_served None [] eq_refl). Defined.

(** C7 fails as stated: a body whose query type is an array is rejected,
    the template lookup raising [TypeError] before any result exists; so
    is a body that is not an object. *)
Lemma array_query_type_is_rejected :
  outcome (query_knowledge_graph None
             (JsonBody (PDict [("query_type", PList [PStr "vocabulary"]);
                               ("topic", PStr "hello")])))
  = inl TypeError
  ∧ outcome (query_knowledge_graph None (JsonBody (PList []))) = inl AttributeError.
Proof. split; reflexivity. Qed.

(** ** Startup, health check and tool listing *)

(** Startup without the three credentials leaves the server in mock mode. *)
Lemma startup_without_credentials getenv GraphDatabase_driver :
  env_truthy (getenv "NEO4J_URI") && env_truthy (getenv "NEO4J_USERNAME")
    && env_truthy (getenv "NEO4J_PASSWORD") = false →
  startup_event getenv GraphDatabase_driver
  = ([Log INFO MockMode; Log INFO ServerStarted], inr None).
Proof. intros Henv. unfold startup_event. by rewrite Henv. Qed.

(** Startup with the three credentials connects when the driver can be
    built, and falls back to mock mode when building it raises an error. *)
Lemma startup_with_credentials getenv GraphDatabase_driver :
  env_truthy (getenv "NEO4J_URI") && env_truthy (getenv "NEO4J_USERNAME")
    && env_truthy (getenv "NEO4J_PASSWORD") = true →
  outcome (startup_event getenv GraphDatabase_driver)
  = match GraphDatabase_driver (default "" (getenv "NEO4J_URI"))
            (default "" (getenv "NEO4J_USERNAME"))
            (default "" (getenv "NEO4J_PASSWORD")) with
    | inr d => inr (Some {| Neo4jNode.driver := d |})
    | inl e => if isinstance_Exception e then inr None else inl e
    end.
Proof.
  intros Henv. unfold startup_event. rewrite Henv.
  unfold Neo4jNode.init.
  destruct (GraphDatabase_driver _ _ _) as [e|d]; [|done].
  cbn. by destruct (isinstance_Exception e).
Qed.

(** C5, as amended: the health check answers with the three fields
    [status], [message] and [neo4j_connected], the last being the boolean
    that tells whether the connection handle is set; with the handle as
    the module initialises it, and after a startup that found no
    credentials, the answer holds [healthy] and [false]. *)
Theorem health_check_reports_connection (neo4j_node : option Neo4jNode.t) :
  dict_keys (health_check neo4j_node) = ["status"; "message"; "neo4j_connected"]
  ∧ lookup_path (health_check neo4j_node) ["status"] = Some (PStr "healthy")
  ∧ lookup_path (health_check neo4j_node) ["message"]
    = Some (PStr "Afrikaans Agent MCP Server is running!")
  ∧ lookup_path (health_check neo4j_node) ["neo4j_connected"]
    = Some (PBool (if neo4j_node is Some _ then true else false))
  ∧ lookup_path (health_check neo4j_node_initial) ["neo4j_connected"]
    = Some (PBool false)
  ∧ (∀ GraphDatabase_driver,
       ∃ node,
         outcome (startup_event (λ _, None) GraphDatabase_driver) = inr node
         ∧ health_check node
           = PDict [("status", PStr "healthy");
                    ("message", PStr "Afrikaans Agent MCP Server is running!");
                    ("neo4j_connected", PBool false)]).
Proof.
  repeat split; try reflexivity; [by destruct neo4j_node|].
  intros GraphDatabase_driver. by exists None.
Qed.

(** C5 fails as stated: the answer has no field [database_connected]; the
    boolean is under [neo4j_connected]. *)
Lemma health_check_has_no_database_connected :
  lookup_path (health_check neo4j_node_initial) ["database_connected"] = None
  ∧ lookup_path (health_check (Some (node_returning Exhausted))) ["database_connected"]
    = None
  ∧ lookup_path (health_check neo4j_node_initial) ["neo4j_connected"]
    = Some (PBool false).
Proof. repeat split; reflexivity. Qed.

(** C8, as amended: the tool listing is an object whose one field [tools]
    holds a list of exactly one tool descriptor; the descriptor has the
    fields [name], [description] and [inputSchema]; the schema declares
    [query_type] as a string enum and [topic] as a string, both required,
    and [difficulty] as a string enum with default [beginner]. *)
Theorem tools_listing_holds_one_descriptor :
  dict_keys get_tools = ["tools"]
  ∧ lookup_path get_tools ["tools"] = Some (PList [MCPToolNode.get_tool_schema])
  ∧ dict_keys MCPToolNode.get_tool_schema = ["name"; "description"; "inputSchema"]
  ∧ lookup_path MCPToolNode.get_tool_schema ["inputSchema"; "properties"; "query_type"; "type"]
    = Some (PStr "string")
  ∧ lookup_path MCPToolNode.get_tool_schema ["inputSchema"; "properties"; "query_type"; "enum"]
    = Some (PList [PStr "vocabulary"; PStr "story"; PStr "culture"; PStr "grammar";
                   PStr "general"])
  ∧ lookup_path MCPToolNode.get_tool_schema ["inputSchema"; "properties"; "topic"; "type"]
    = Some (PStr "string")
  ∧ lookup_path MCPToolNode.get_tool_schema ["inputSchema"; "properties"; "difficulty"; "enum"]
    = Some (PList [PStr "beginner"; PStr "intermediate"; PStr "advanced"])
  ∧ lookup_path MCPToolNode.get_tool_schema ["inputSchema"; "properties"; "difficulty"; "default"]
    = Some (PStr "beginner")
  ∧ lookup_path MCPToolNode.get_tool_schema ["inputSchema"; "required"]
    = Some (PList [PStr "query_type"; PStr "topic"]).
Proof. repeat split; reflexivity. Qed.

(** C8 fails as stated: what the endpoint returns is not a list but an
    object, and the list of descriptors is the value of its field
    [tools]. *)
Lemma tools_listing_is_not_a_list :
  (∀ items, get_tools ≠ PList items)
  ∧ get_tools = PDict [("tools", PList [MCPToolNode.get_tool_schema])].
Proof. split; [discriminate|reflexivity]. Qed.

(** * Further properties of the code *)

(** ** The query executor on its other paths *)

Lemma records_of_cursor_of records :
  Neo4jNode.records_of (cursor_of records) = inr (map PDict records).
Proof.
  induction records as [|fields rest IH]; [done|].
  cbn [cursor_of Neo4jNode.records_of map]. by rewrite IH.
Qed.

(** What the [try] body does once the session is open. *)
Lemma query_body_in_session self s q parameters :
  session (Neo4jNode.driver self) = inr s →
  Neo4jNode.query_body self q parameters
  = (DbRun q (default [] parameters)
       :: match run s q (default [] parameters) with
          | inl _ => []
          | inr result =>
              match Neo4jNode.records_of result with
              | inl _ => []
              | inr records =>
                  [Log INFO (QueryExecuted (String.substring 0 50 q) (length records))]
              end
          end,
     match session_exit s with
     | Some e => inl e
     | None =>
         match run s q (default [] parameters) with
         | inl e => inl e
         | inr result => Neo4jNode.records_of result
         end
     end).
Proof.
  intros Hs. unfold Neo4jNode.query_body, Neo4jNode.with_session. rewrite Hs. cbn.
  destruct (run s q (default [] parameters)) as [e|result].
  - by destruct (session_exit s).
  - destruct (Neo4jNode.records_of result); by destruct (session_exit s).
Qed.

Lemma query_body_no_session self e q parameters :
  session (Neo4jNode.driver self) = inl e →
  Neo4jNode.query_body self q parameters = ([], inl e).
Proof.
  intros Hs. unfold Neo4jNode.query_body, Neo4jNode.with_session. by rewrite Hs.
Qed.

(** X1: when the session opens and closes cleanly and the result hands out
    its records to the end, [query] returns every record as a dict, in the
    order of the result, after running the query once with the given
    parameters and logging the count. *)
Theorem query_returns_every_record
    (self : Neo4jNode.t) (s : Session) (cypher_query : string)
    (parameters : option (list (string * pyval)))
    (records : list (list (string * pyval))) :
  session (Neo4jNode.driver self) = inr s →
  session_exit s = None →
  run s cypher_query (default [] parameters) = inr (cursor_of records) →
  Neo4jNode.query self cypher_query parameters
  = ([DbRun cypher_query (default [] parameters);
      Log INFO (QueryExecuted (String.substring 0 50 cypher_query) (length records))],
     inr (map PDict records)).
Proof.
  intros Hs Hexit Hrun. unfold Neo4jNode.query.
  rewrite (query_body_in_session self s _ _ Hs), Hexit, Hrun, records_of_cursor_of.
  cbn. by rewrite length_map.
Qed.

Lemma query_returns_every_record_witness :
  Neo4jNode.query
    (node_returning (cursor_of [[("afrikaans", PStr "hallo")]; [("afrikaans", PStr "totsiens")]]))
    QueryProcessorNode.vocabulary_template (Some [("topic", PStr "h")])
  = ([DbRun QueryProcessorNode.vocabulary_template (default [] (Some [("topic", PStr "h")]));
      Log INFO (QueryExecuted
                  (String.substring 0 50 QueryProcessorNode.vocabulary_template)
                  (length [[("afrikaans", PStr "hallo")]; [("afrikaans", PStr "totsiens")]]))],
     inr (map PDict [[("afrikaans", PStr "hallo")]; [("afrikaans", PStr "totsiens")]])).
Proof.
  exact (query_returns_every_record
           (node_returning
              (cursor_of [[("afrikaans", PStr "hallo")]; [("afrikaans", PStr "totsiens")]]))
           {| run := λ _ _, inr (cursor_of [[("afrikaans", PStr "hallo")];
                                             [("afrikaans", PStr "totsiens")]]);
              session_exit := None |}
           QueryProcessorNode.vocabulary_template (Some [("topic", PStr "h")])
           [[("afrikaans", PStr "hallo")]; [("afrikaans", PStr "totsiens")]]
           eq_refl eq_refl eq_refl).
Defined.

(** X2: [query] ends in one of two ways only: it returns a list, or it
    lets through the very exception its [try] body raised, and then that
    exception is not an instance of [Exception]. *)
Theorem query_lets_no_error_through
    (self : Neo4jNode.t) (cypher_query : string)
    (parameters : option (list (string * pyval))) :
  (∃ rows, outcome (Neo4jNode.query self cypher_query parameters) = inr rows)
  ∨ (∃ e, outcome (Neo4jNode.query self cypher_query parameters) = inl e
          ∧ outcome (Neo4jNode.query_body self cypher_query parameters) = inl e
          ∧ isinstance_Exception e = false).
Proof.
  unfold Neo4jNode.query, try_except.
  destruct (Neo4jNode.query_body self cypher_query parameters) as [tr [e|rows]].
  - destruct (isinstance_Exception e) eqn:He; cbn.
    + left. by eexists.
    + right. by exists e.
  - left. by exists rows.
Qed.

(** X3: a list that [query] returns is empty, or it holds every record of
    a result that was read to its end in a session that closed cleanly;
    a result that broke half-way never shows through. *)
Theorem query_result_is_empty_or_complete
    (self : Neo4jNode.t) (cypher_query : string)
    (parameters : option (list (string * pyval))) (rows : list pyval) :
  outcome (Neo4jNode.query self cypher_query parameters) = inr rows →
  rows = []
  ∨ (∃ s result,
       session (Neo4jNode.driver self) = inr s
       ∧ session_exit s = None
       ∧ run s cypher_query (default [] parameters) = inr result
       ∧ Neo4jNode.records_of result = inr rows).
Proof.
  intros Hq. destruct (query_returns_nothing_or_all _ _ _ _ Hq) as [->|Hbody];
    [by left|right].
  rewrite query_body_outcome in Hbody.
  destruct (session (Neo4jNode.driver self)) as [e|s]; [done|].
  destruct (session_exit s) as [e|] eqn:Hexit; [done|].
  destruct (run s cypher_query (default [] parameters)) as [e|result] eqn:Hrun; [done|].
  by exists s, result.
Qed.

Lemma query_result_is_empty_or_complete_witness :
  [PDict [("afrikaans", PStr "hallo")]] = []
  ∨ (∃ s result,
       session (Neo4jNode.driver
                  (node_returning (cursor_of [[("afrikaans", PStr "hallo")]]))) = inr s
       ∧ session_exit s = None
       ∧ run s QueryProcessorNode.vocabulary_template (default [] None) = inr result
       ∧ Neo4jNode.records_of result = inr [PDict [("afrikaans", PStr "hallo")]]).
Proof.
  exact (query_result_is_empty_or_complete
           (node_returning (cursor_of [[("afrikaans", PStr "hallo")]]))
           QueryProcessorNode.vocabulary_template None
           [PDict [("afrikaans", PStr "hallo")]] eq_refl).
Defined.

(** X4: when closing the session raises an error after every record has
    been read, [query] still returns the empty list: the records are
    dropped, and the log holds the count followed by the failure. *)
Theorem query_drops_records_when_close_fails
    (self : Neo4jNode.t) (s : Session) (cypher_query : string)
    (parameters : option (list (string * pyval)))
    (records : list (list (string * pyval))) (e : pyexc) :
  session (Neo4jNode.driver self) = inr s →
  run s cypher_query (default [] parameters) = inr (cursor_of records) →
  session_exit s = Some e →
  isinstance_Exception e = true →
  Neo4jNode.query self cypher_query parameters
  = ([DbRun cypher_query (default [] parameters);
      Log INFO (QueryExecuted (String.substring 0 50 cypher_query) (length records));
      Log ERROR (QueryFailed e)],
     inr []).
Proof.
  intros Hs Hrun Hexit He. unfold Neo4jNode.query.
  rewrite (query_body_in_session self s _ _ Hs), Hexit, Hrun, records_of_cursor_of.
  cbn. by rewrite He, length_map.
Qed.

Lemma query_drops_records_when_close_fails_witness :
  Neo4jNode.query unclosable_node QueryProcessorNode.vocabulary_template None
  = ([DbRun QueryProcessorNode.vocabulary_template (default [] None);
      Log INFO (QueryExecuted
                  (String.substring 0 50 QueryProcessorNode.vocabulary_template)
                  (length [[("afrikaans", PStr "hallo")]]));
      Log ERROR (QueryFailed (Exception_ "SessionExpired"))],
     inr []).
Proof.
  exact (query_drops_records_when_close_fails unclosable_node
           {| run := λ _ _, inr (cursor_of [[("afrikaans", PStr "hallo")]]);
              session_exit := Some (Exception_ "SessionExpired") |}
           QueryProcessorNode.vocabulary_template None
           [[("afrikaans", PStr "hallo")]] (Exception_ "SessionExpired")
           eq_refl eq_refl eq_refl eq_refl).
Defined.

(** ** The handler on its other paths *)

(** Membership in a list given by its elements. *)
Ltac in_list := cbn; apply list_elem_of_In; simpl; tauto.

(** An effect of another kind is in no trace given by its elements. *)
Ltac not_in_trace :=
  let Hin := fresh "Hin" in
  cbn; intros Hin;
  repeat (apply elem_of_cons in Hin as [Hin|Hin]; [by simplify_eq|]);
  by apply elem_of_nil in Hin.

Lemma generate_cypher_query_range query_type topic difficulty q :
  QueryProcessorNode.generate_cypher_query query_type topic difficulty = inr q →
  q ∈ templates.
Proof.
  unfold QueryProcessorNode.generate_cypher_query. rewrite subscript_general.
  unfold QueryProcessorNode.get. destruct (hashable query_type); [|done].
  destruct query_type; try (intros [= <-]; in_list).
  intros [= <-]. unfold QueryProcessorNode.patterns.
  destruct (decide (s = "vocabulary")) as [->|]; [simplify_map_eq; in_list|].
  destruct (decide (s = "story")) as [->|]; [simplify_map_eq; in_list|].
  destruct (decide (s = "culture")) as [->|]; [simplify_map_eq; in_list|].
  destruct (decide (s = "grammar")) as [->|]; [simplify_map_eq; in_list|].
  destruct (decide (s = "general")) as [->|]; simplify_map_eq; in_list.
Qed.

(** The only query [query] runs is the one it was given. *)
Lemma query_trace_dbrun self q parameters q' p' :
  DbRun q' p' ∈ trace (Neo4jNode.query self q parameters) →
  q' = q ∧ p' = default [] parameters.
Proof.
  unfold Neo4jNode.query.
  destruct (session (Neo4jNode.driver self)) as [e|s] eqn:Hs.
  - rewrite (query_body_no_session self e _ _ Hs). unfold try_except.
    destruct (isinstance_Exception e); not_in_trace.
  - rewrite (query_body_in_session self s _ _ Hs). unfold try_except.
    destruct (session_exit s) as [e|];
      destruct (run s q (default [] parameters)) as [e'|result];
      try destruct (Neo4jNode.records_of result) as [e''|records];
      try destruct (isinstance_Exception e);
      try destruct (isinstance_Exception e');
      try destruct (isinstance_Exception e'');
      cbn; intros Hin;
      repeat (apply elem_of_cons in Hin as [Hin|Hin]; [by simplify_eq|]);
      by apply elem_of_nil in Hin.
Qed.

Lemma query_results_connected_eq node items q :
  QueryProcessorNode.generate_cypher_query
    (dict_get items "query_type" (PStr "general"))
    (dict_get items "topic" (PStr ""))
    (dict_get items "difficulty" (PStr "beginner")) = inr q →
  query_results (Some node) (JsonBody (PDict items))
  = (Log INFO (InputReceived (dict_get items "query_type" (PStr "general"))
                 (dict_get items "topic" (PStr "")))
       :: trace (Neo4jNode.query node q (Some (bound_parameters items))),
     match outcome (Neo4jNode.query node q (Some (bound_parameters items))) with
     | inl e => inl e
     | inr results => inr (dict_get items "topic" (PStr ""), results)
     end).
Proof.
  intros Hq. unfold query_results, bound_parameters. cbn. rewrite Hq.
  destruct (Neo4jNode.query node q _) as [tr [e|rows]]; cbn;
    by rewrite ?app_nil_r.
Qed.

Lemma query_knowledge_graph_eq node request :
  query_knowledge_graph node request
  = (trace (query_results node request),
     match outcome (query_results node request) with
     | inl e => inl e
     | inr (topic, results) =>
         inr {| stream_topic := topic; stream_results := results |}
     end).
Proof.
  unfold query_knowledge_graph.
  destruct (query_results node request) as [tr [e|[topic results]]]; cbn;
    by rewrite ?app_nil_r.
Qed.

Lemma query_results_not_dict node body :
  is_dict body = false → query_results node (JsonBody body) = ([], inl AttributeError).
Proof. by destruct body. Qed.

(** X5: whatever the request, a query the handler sends to the database is
    one of the five fixed templates, and the request's topic and difficulty
    travel as the bound parameters [topic] and [difficulty]; no part of the
    request is ever spliced into the query text. *)
Theorem database_sees_only_templates
    (node : option Neo4jNode.t) (request : Request)
    (q : string) (p : list (string * pyval)) :
  DbRun q p ∈ trace (query_knowledge_graph node request) →
  q ∈ templates
  ∧ ∃ items, request = JsonBody (PDict items) ∧ p = bound_parameters items.
Proof.
  rewrite query_knowledge_graph_eq. cbn [trace fst].
  destruct request as [|body]; [not_in_trace|].
  destruct (is_dict body) eqn:Hd;
    [|rewrite (query_results_not_dict _ _ Hd); not_in_trace].
  destruct body as [| | | | | |items|]; try done.
  destruct node as [node|].
  - destruct (QueryProcessorNode.generate_cypher_query
                (dict_get items "query_type" (PStr "general"))
                (dict_get items "topic" (PStr ""))
                (dict_get items "difficulty" (PStr "beginner"))) as [e|q0] eqn:Hq.
    + unfold query_results. cbn. rewrite Hq. not_in_trace.
    + rewrite (query_results_connected_eq node items q0 Hq). cbn [fst].
      intros Hin. apply elem_of_cons in Hin as [Hin|Hin]; [done|].
      apply query_trace_dbrun in Hin as [-> ->]. split.
      * by eapply generate_cypher_query_range.
      * by exists items.
  - rewrite query_results_mock. not_in_trace.
Qed.

Lemma database_sees_only_templates_witness :
  QueryProcessorNode.story_template ∈ templates
  ∧ ∃ items,
      JsonBody (PDict [("query_type", PStr "story"); ("topic", PStr "trek")])
      = JsonBody (PDict items)
      ∧ [("topic", PStr "trek"); ("difficulty", PStr "beginner")]
        = bound_parameters items.
Proof.
  apply (database_sees_only_templates
           (Some (node_returning Exhausted))
           (JsonBody (PDict [("query_type", PStr "story"); ("topic", PStr "trek")]))
           QueryProcessorNode.story_template
           [("topic", PStr "trek"); ("difficulty", PStr "beginner")]).
  apply list_elem_of_In. vm_compute. right. left. reflexivity.
Defined.

(** X6: with a database connected, a request whose query fails with an
    error is still answered: the stream holds the processing event and
    the complete event with [total_results] 0, and nothing else. *)
Theorem failed_query_streams_no_results
    (encode : pyval → string) (node : Neo4jNode.t)
    (items : list (string * pyval)) (q : string) (e : pyexc) :
  QueryProcessorNode.generate_cypher_query
    (dict_get items "query_type" (PStr "general"))
    (dict_get items "topic" (PStr ""))
    (dict_get items "difficulty" (PStr "beginner")) = inr q →
  outcome (Neo4jNode.query_body node q (Some (bound_parameters items))) = inl e →
  isinstance_Exception e = true →
  json_serializable (dict_get items "topic" (PStr "")) = true →
  ∃ response,
    outcome (query_knowledge_graph (Some node) (JsonBody (PDict items))) = inr response
    ∧ iterate encode response
      = ([sse (encode (status_processing (dict_get items "topic" (PStr ""))));
          sse (encode (PDict [("status", PStr "complete"); ("total_results", PInt 0)]))],
         None).
Proof.
  intros Hq Hbody He Htopic.
  rewrite query_knowledge_graph_eq, (query_results_connected_eq node items q Hq).
  cbn [outcome snd]. unfold Neo4jNode.query, try_except.
  destruct (Neo4jNode.query_body node q (Some (bound_parameters items))) as [tr r].
  cbn in Hbody. subst r. rewrite He. cbn. eexists. split; [done|].
  unfold iterate. cbn [stream_topic stream_results].
  by rewrite generate_stream_serializable.
Qed.

Lemma failed_query_streams_no_results_witness :
  ∃ response,
    outcome (query_knowledge_graph (Some unreachable_node)
               (JsonBody (PDict [("topic", PStr "braai")]))) = inr response
    ∧ iterate (λ _, "{}") response
      = ([sse "{}"; sse "{}"], None).
Proof.
  exact (failed_query_streams_no_results (λ _, "{}") unreachable_node
           [("topic", PStr "braai")] QueryProcessorNode.general_template
           (Exception_ "ServiceUnavailable") eq_refl eq_refl eq_refl eq_refl).
Defined.

(** X7: with a database connected, a request whose query succeeds is
    answered by the full stream: processing, one result event per record
    in the order the database gave them, complete with their number;
    provided the topic and the records hold JSON values only. *)
Theorem connected_query_streams_every_record
    (encode : pyval → string) (node : Neo4jNode.t) (s : Session)
    (items : list (string * pyval)) (q : string)
    (records : list (list (string * pyval))) :
  QueryProcessorNode.generate_cypher_query
    (dict_get items "query_type" (PStr "general"))
    (dict_get items "topic" (PStr ""))
    (dict_get items "difficulty" (PStr "beginner")) = inr q →
  session (Neo4jNode.driver node) = inr s →
  session_exit s = None →
  run s q (bound_parameters items) = inr (cursor_of records) →
  json_serializable (dict_get items "topic" (PStr "")) = true →
  forallb json_serializable (map PDict records) = true →
  ∃ response,
    outcome (query_knowledge_graph (Some node) (JsonBody (PDict items))) = inr response
    ∧ stream_results response = map PDict records
    ∧ iterate encode response
      = (expected_events encode (dict_get items "topic" (PStr "")) (map PDict records),
         None)
    ∧ length (fst (iterate encode response)) = length records + 2.
Proof.
  intros Hq Hs Hexit Hrun Htopic Hrows.
  rewrite query_knowledge_graph_eq, (query_results_connected_eq node items q Hq).
  cbn [outcome snd]. unfold Neo4jNode.query.
  rewrite (query_body_in_session node s _ _ Hs), Hexit.
  change (default [] (Some (bound_parameters items))) with (bound_parameters items).
  rewrite Hrun, records_of_cursor_of. cbn. eexists. split; [done|]. split; [done|].
  unfold iterate. cbn [stream_topic stream_results].
  rewrite generate_stream_serializable by done. split; [done|].
  cbn [fst length]. rewrite length_app, length_imap, length_map. simpl. lia.
Qed.

Lemma connected_query_streams_every_record_witness :
  ∃ response,
    outcome (query_knowledge_graph
               (Some (node_returning (cursor_of [[("afrikaans", PStr "hallo")]])))
               (JsonBody (PDict [("query_type", PStr "vocabulary"); ("topic", PStr "hello")])))
    = inr response
    ∧ stream_results response = map PDict [[("afrikaans", PStr "hallo")]]
    ∧ iterate (λ _, "{}") response
      = (expected_events (λ _, "{}") (PStr "hello")
           (map PDict [[("afrikaans", PStr "hallo")]]), None)
    ∧ length (fst (iterate (λ _, "{}") response))
      = length [[("afrikaans", PStr "hallo")]] + 2.
Proof.
  exact (connected_query_streams_every_record (λ _, "{}")
           (node_returning (cursor_of [[("afrikaans", PStr "hallo")]]))
           {| run := λ _ _, inr (cursor_of [[("afrikaans", PStr "hallo")]]);
              session_exit := None |}
           [("query_type", PStr "vocabulary"); ("topic", PStr "hello")]
           QueryProcessorNode.vocabulary_template
           [[("afrikaans", PStr "hallo")]]
           eq_refl eq_refl eq_refl eq_refl eq_refl eq_refl).
Defined.

(** X8: without a database, every request whose body is a JSON object with
    a hashable query type is answered by exactly three events: processing
    with the topic, one result carrying the diagnostic row at index 0, and
    complete with [total_results] 1. *)
Theorem mock_mode_stream_has_three_events
    (encode : pyval → string) (items : list (string * pyval)) :
  hashable (dict_get items "query_type" (PStr "general")) = true →
  json_serializable (dict_get items "topic" (PStr "")) = true →
  json_serializable (dict_get items "query_type" (PStr "general")) = true →
  ∃ response,
    outcome (query_knowledge_graph None (JsonBody (PDict items))) = inr response
    ∧ iterate encode response
      = ([sse (encode (status_processing (dict_get items "topic" (PStr ""))));
          sse (encode (status_result
                         (mock_row (dict_get items "topic" (PStr ""))
                            (dict_get items "query_type" (PStr "general"))) 0));
          sse (encode (PDict [("status", PStr "complete"); ("total_results", PInt 1)]))],
         None).
Proof.
  intros Hh Htopic Hqt.
  rewrite query_knowledge_graph_eq, query_results_mock. cbn [outcome snd].
  rewrite Hh. eexists. split; [done|].
  unfold iterate. cbn [stream_topic stream_results].
  rewrite generate_stream_serializable; [done|done|].
  cbn. by rewrite Htopic, Hqt.
Qed.

Lemma mock_mode_stream_has_three_events_witness :
  ∃ response,
    outcome (query_knowledge_graph None
               (JsonBody (PDict [("query_type", PInt 7); ("topic", PNone)])))
    = inr response
    ∧ iterate (λ _, "{}") response = ([sse "{}"; sse "{}"; sse "{}"], None).
Proof.
  exact (mock_mode_stream_has_three_events (λ _, "{}")
           [("query_type", PInt 7); ("topic", PNone)] eq_refl eq_refl eq_refl).
Defined.

(** X9: a request whose body is valid JSON but not an object is refused
    with [AttributeError] before anything is logged or sent to the
    database, with or without a database; a body that is not JSON is
    refused with the decoding error in the same way. *)
Theorem non_object_body_is_rejected (node : option Neo4jNode.t) (body : pyval) :
  is_dict body = false →
  query_knowledge_graph node (JsonBody body) = ([], inl AttributeError)
  ∧ query_knowledge_graph node InvalidJson = ([], inl JSONDecodeError).
Proof.
  intros Hd. split; [|done].
  rewrite query_knowledge_graph_eq. by rewrite (query_results_not_dict _ _ Hd).
Qed.

Lemma non_object_body_is_rejected_witness :
  query_knowledge_graph (Some (node_returning Exhausted)) (JsonBody (PStr "vocabulary"))
  = ([], inl AttributeError)
  ∧ query_knowledge_graph (Some (node_returning Exhausted)) InvalidJson
    = ([], inl JSONDecodeError).
Proof.
  exact (non_object_body_is_rejected (Some (node_returning Exhausted))
           (PStr "vocabulary") eq_refl).
Defined.

(** X10: a request whose query type is an array or an object is refused
    with [TypeError] once its input has been logged; the database is not
    queried, whether one is connected or not. *)
Theorem unhashable_query_type_never_reaches_database
    (node : option Neo4jNode.t) (items : list (string * pyval)) :
  hashable (dict_get items "query_type" (PStr "general")) = false →
  query_knowledge_graph node (JsonBody (PDict items))
  = ([Log INFO (InputReceived (dict_get items "query_type" (PStr "general"))
                  (dict_get items "topic" (PStr "")))],
     inl TypeError).
Proof.
  intros Hh. rewrite query_knowledge_graph_eq.
  assert (Hr : query_results node (JsonBody (PDict items))
               = ([Log INFO (InputReceived (dict_get items "query_type" (PStr "general"))
                               (dict_get items "topic" (PStr "")))],
                  inl TypeError)).
  { unfold query_results. cbn.
    by rewrite generate_cypher_query_unhashable. }
  by rewrite Hr.
Qed.

Lemma unhashable_query_type_never_reaches_database_witness :
  query_knowledge_graph (Some (node_returning Exhausted))
    (JsonBody (PDict [("query_type", PDict [("kind", PStr "story")])]))
  = ([Log INFO (InputReceived (PDict [("kind", PStr "story")]) (PStr ""))],
     inl TypeError).
Proof.
  exact (unhashable_query_type_never_reaches_database
           (Some (node_returning Exhausted))
           [("query_type", PDict [("kind", PStr "story")])] eq_refl).
Defined.

(** X11: a field the body has is never replaced by a default, whatever its
    value: [body.get] returns the stored value, so an explicit [null]
    topic stays [None] and does not become the empty string. *)
Theorem present_field_is_never_defaulted
    (items : list (string * pyval)) (key : string) :
  dict_has items key = true →
  ∃ v, (key, v) ∈ items ∧ ∀ fallback, dict_get items key fallback = v.
Proof.
  induction items as [|[k v] rest IH]; [done|]. cbn.
  destruct (String.eqb k key) eqn:Hk.
  - intros _. apply String.eqb_eq in Hk as ->. exists v. split; [left|done].
  - cbn. intros Hrest. destruct (IH Hrest) as (v' & Hin & Hget).
    exists v'. split; [by right|done].
Qed.

Lemma present_field_is_never_defaulted_witness :
  ∃ v, ("topic", v) ∈ [("query_type", PStr "story"); ("topic", PNone)]
       ∧ ∀ fallback,
           dict_get [("query_type", PStr "story"); ("topic", PNone)] "topic" fallback = v.
Proof.
  exact (present_field_is_never_defaulted
           [("query_type", PStr "story"); ("topic", PNone)] "topic" eq_refl).
Defined.

(** X12: a query type that is not a string never matches a key of the
    template table: [None], booleans and numbers select the general
    template, arrays and objects raise [TypeError]. *)
Theorem non_string_query_type_selects_general
    (query_type topic difficulty : pyval) :
  is_str query_type = false →
  QueryProcessorNode.generate_cypher_query query_type topic difficulty
  = if hashable query_type then inr QueryProcessorNode.general_template
    else inl TypeError.
Proof.
  intros Hs. unfold QueryProcessorNode.generate_cypher_query.
  rewrite subscript_general. unfold QueryProcessorNode.get.
  by destruct query_type.
Qed.

Lemma non_string_query_type_selects_general_witness :
  QueryProcessorNode.generate_cypher_query PNone (PStr "braai") (PStr "beginner")
  = if hashable PNone then inr QueryProcessorNode.general_template else inl TypeError.
Proof.
  exact (non_string_query_type_selects_general PNone (PStr "braai") (PStr "beginner")
           eq_refl).
Defined.

(** ** The event stream on every input *)

Lemma forallb_first_false {A} (f : A → bool) (l : list A) :
  forallb f l = false →
  ∃ good bad rest, l = good ++ bad :: rest ∧ forallb f good = true ∧ f bad = false.
Proof.
  induction l as [|x l IH]; [done|]. cbn.
  destruct (f x) eqn:Hx.
  - cbn. intros Hl. destruct (IH Hl) as (good & bad & rest & -> & Hgood & Hbad).
    exists (x :: good), bad, rest. cbn. by rewrite Hx.
  - intros _. by exists [], x, l.
Qed.

(** X13: the stream stops at the first row the encoder refuses: the
    processing event and the result events of the rows before it have been
    sent, then [TypeError] ends the stream; the later rows and the
    complete event are never sent. *)
Theorem stream_cut_at_first_unencodable_row
    (encode : pyval → string) (topic : pyval) (good : list pyval) (bad : pyval)
    (rest : list pyval) :
  json_serializable topic = true →
  forallb json_serializable good = true →
  json_serializable bad = false →
  generate_stream encode topic (good ++ bad :: rest)
  = (sse (encode (status_processing topic))
       :: imap (λ i r, sse (encode (status_result r i))) good, Some TypeError)
  ∧ length (fst (generate_stream encode topic (good ++ bad :: rest))) = length good + 1.
Proof.
  intros Htopic Hgood Hbad.
  rewrite (generate_stream_refused encode topic good bad rest Htopic Hgood Hbad).
  split; [done|]. cbn. rewrite length_imap. lia.
Qed.

Lemma stream_cut_at_first_unencodable_row_witness :
  generate_stream (λ _, "{}") (PStr "trek") ([word_row] ++ date_row :: [word_row])
  = (sse "{}" :: imap (λ _ _, sse "{}") [word_row], Some TypeError)
  ∧ length (fst (generate_stream (λ _, "{}") (PStr "trek")
                   ([word_row] ++ date_row :: [word_row])))
    = length [word_row] + 1.
Proof.
  exact (stream_cut_at_first_unencodable_row (λ _, "{}") (PStr "trek")
           [word_row] date_row [word_row] eq_refl eq_refl eq_refl).
Defined.

(** X14: on every topic and every list of rows, what the stream sends is
    a prefix of the expected events.  It is all of them, and the stream
    ends normally, exactly when the topic and every row are encodable;
    otherwise it ends with [TypeError] before the complete event, having
    sent at most one event per row. *)
Theorem stream_is_prefix_of_expected_events
    (encode : pyval → string) (topic : pyval) (results : list pyval) :
  fst (generate_stream encode topic results) `prefix_of`
    expected_events encode topic results
  ∧ (if json_serializable topic && forallb json_serializable results
     then generate_stream encode topic results
          = (expected_events encode topic results, None)
     else snd (generate_stream encode topic results) = Some TypeError
          ∧ (length (fst (generate_stream encode topic results)) ≤ length results)%nat).
Proof.
  destruct (json_serializable topic) eqn:Htopic; cbn [andb].
  - destruct (forallb json_serializable results) eqn:Hall.
    + rewrite generate_stream_serializable by done. by split.
    + destruct (forallb_first_false _ _ Hall) as (good & bad & rest & -> & Hg & Hb).
      rewrite generate_stream_refused by done. cbn [fst snd]. split.
      * unfold expected_events. rewrite imap_app, <-!app_assoc.
        apply prefix_cons, prefix_app_r. done.
      * split; [done|]. cbn. rewrite length_imap, length_app. cbn. lia.
  - unfold generate_stream.
    rewrite yield_data_fails by (simpl; by rewrite Htopic).
    rewrite gen_seq_raise. cbn. split; [apply prefix_nil|]. split; [done|lia].
Qed.

(** ** Startup and shutdown *)

(** X15: startup needs all three credentials.  When one of them is unset,
    or set to the empty string, the server starts in mock mode: the
    connection handle stays [None] and the driver is not built, whatever
    the other two hold. *)
Theorem startup_needs_all_three_credentials
    (getenv : string → option string)
    (GraphDatabase_driver : string → string → string → pyexc + Driver)
    (name : string) :
  name ∈ credentials →
  env_truthy (getenv name) = false →
  startup_event getenv GraphDatabase_driver
  = ([Log INFO MockMode; Log INFO ServerStarted], inr None).
Proof.
  intros Hname Hfalsy. apply startup_without_credentials.
  unfold credentials in Hname.
  repeat (apply elem_of_cons in Hname as [->|Hname];
          [rewrite Hfalsy; by rewrite ?andb_false_r|]).
  by apply elem_of_nil in Hname.
Qed.

Lemma startup_needs_all_three_credentials_witness :
  startup_event env_empty_password (λ _ _ _, inr one_word_driver)
  = ([Log INFO MockMode; Log INFO ServerStarted], inr None).
Proof.
  apply (startup_needs_all_three_credentials env_empty_password
           (λ _ _ _, inr one_word_driver) "NEO4J_PASSWORD");
    [apply list_elem_of_In; simpl; tauto | reflexivity].
Defined.

(** X16: startup survives a database that cannot be reached: when the
    three credentials are set and building the driver raises an error, the
    error is logged and the server starts in mock mode. *)
Theorem startup_survives_connection_error
    (getenv : string → option string)
    (GraphDatabase_driver : string → string → string → pyexc + Driver)
    (e : pyexc) :
  env_truthy (getenv "NEO4J_URI") && env_truthy (getenv "NEO4J_USERNAME")
    && env_truthy (getenv "NEO4J_PASSWORD") = true →
  GraphDatabase_driver (default "" (getenv "NEO4J_URI"))
    (default "" (getenv "NEO4J_USERNAME")) (default "" (getenv "NEO4J_PASSWORD"))
  = inl e →
  isinstance_Exception e = true →
  startup_event getenv GraphDatabase_driver
  = ([Log ERROR (ConnectFailed e); Log INFO ServerStarted], inr None).
Proof.
  intros Henv Hdrv He. unfold startup_event, Neo4jNode.init.
  rewrite Henv, Hdrv. cbn. by rewrite He.
Qed.

Lemma startup_survives_connection_error_witness :
  startup_event env_complete (λ _ _ _, inl (Exception_ "ServiceUnavailable"))
  = ([Log ERROR (ConnectFailed (Exception_ "ServiceUnavailable")); Log INFO ServerStarted],
     inr None).
Proof.
  exact (startup_survives_connection_error env_complete
           (λ _ _ _, inl (Exception_ "ServiceUnavailable"))
           (Exception_ "ServiceUnavailable") eq_refl eq_refl eq_refl).
Defined.

(** X17: when the three credentials are set and the driver is built,
    startup stores a node holding that driver, built from the three values
    of the environment, and the health check then reports the connection. *)
Theorem startup_connects_with_credentials
    (getenv : string → option string)
    (GraphDatabase_driver : string → string → string → pyexc + Driver)
    (d : Driver) :
  env_truthy (getenv "NEO4J_URI") && env_truthy (getenv "NEO4J_USERNAME")
    && env_truthy (getenv "NEO4J_PASSWORD") = true →
  GraphDatabase_driver (default "" (getenv "NEO4J_URI"))
    (default "" (getenv "NEO4J_USERNAME")) (default "" (getenv "NEO4J_PASSWORD"))
  = inr d →
  startup_event getenv GraphDatabase_driver
  = ([Log INFO NodeInitialized; Log INFO ConnectionEstablished; Log INFO ServerStarted],
     inr (Some {| Neo4jNode.driver := d |}))
  ∧ ∀ node, outcome (startup_event getenv GraphDatabase_driver) = inr node →
      lookup_path (health_check node) ["neo4j_connected"] = Some (PBool true).
Proof.
  intros Henv Hdrv.
  assert (Hs : startup_event getenv GraphDatabase_driver
               = ([Log INFO NodeInitialized; Log INFO ConnectionEstablished;
                   Log INFO ServerStarted],
                  inr (Some {| Neo4jNode.driver := d |}))).
  { unfold startup_event, Neo4jNode.init. by rewrite Henv, Hdrv. }
  split; [done|]. rewrite Hs. by intros node [= <-].
Qed.

Lemma startup_connects_with_credentials_witness :
  startup_event env_complete (λ _ _ _, inr one_word_driver)
  = ([Log INFO NodeInitialized; Log INFO ConnectionEstablished; Log INFO ServerStarted],
     inr (Some {| Neo4jNode.driver := one_word_driver |}))
  ∧ ∀ node,
      outcome (startup_event env_complete (λ _ _ _, inr one_word_driver)) = inr node →
      lookup_path (health_check node) ["neo4j_connected"] = Some (PBool true).
Proof.
  exact (startup_connects_with_credentials env_complete
           (λ _ _ _, inr one_word_driver) one_word_driver eq_refl eq_refl).
Defined.

(** X18: shutdown closes the driver exactly when a node is connected, and
    logs its last line exactly when it ends without an exception: an
    exception raised by the driver's [close] is not caught, it leaves the
    handler and the line is not logged. *)
Theorem shutdown_closes_connected_driver (neo4j_node : option Neo4jNode.t) :
  (DriverClose ∈ trace (shutdown_event neo4j_node) ↔ neo4j_node ≠ None)
  ∧ (Log INFO ShutdownComplete ∈ trace (shutdown_event neo4j_node)
     ↔ outcome (shutdown_event neo4j_node) = inr tt)
  ∧ outcome (shutdown_event neo4j_node)
    = match neo4j_node with
      | Some node =>
          match driver_close (Neo4jNode.driver node) with
          | Some e => inl e
          | None => inr tt
          end
      | None => inr tt
      end.
Proof.
  destruct neo4j_node as [node|].
  - unfold shutdown_event, Neo4jNode.close.
    destruct (driver_close (Neo4jNode.driver node)) as [e|]; cbn.
    + split; [split; [done|intros _; in_list]|]. split; [|done].
      split; [not_in_trace|done].
    + split; [split; [done|intros _; in_list]|]. split; [|done].
      split; [done|intros _; in_list].
  - cbn. split; [split; [not_in_trace|done]|]. split; [|done].
    split; [done|intros _; in_list].
Qed.

(** ** The tool schema against the code it describes *)



(** X20: whatever the request, the query selected for it refers to the
    bound parameter [$topic], never to [$difficulty], and carries a
    [LIMIT] clause: the difficulty of a request is handed to the database
    but no template reads it. *)
Theorem selected_query_reads_topic_only
    (query_type topic difficulty : pyval) (q : string) :
  QueryProcessorNode.generate_cypher_query query_type topic difficulty = inr q →
  string_contains "$topic" q = true
  ∧ string_contains "$difficulty" q = false
  ∧ string_contains "LIMIT " q = true.
Proof.
  intros Hq. apply generate_cypher_query_range in Hq.
  apply list_elem_of_In in Hq. simpl in Hq.
  destruct Hq as [<-|[<-|[<-|[<-|[<-|[]]]]]]; vm_compute; done.
Qed.

Lemma selected_query_reads_topic_only_witness :
  string_contains "$topic" QueryProcessorNode.story_template = true
  ∧ string_contains "$difficulty" QueryProcessorNode.story_template = false
  ∧ string_contains "LIMIT " QueryProcessorNode.story_template = true.
Proof.
  exact (selected_query_reads_topic_only (PStr "story") (PStr "trek") (PStr "advanced")
           QueryProcessorNode.story_template eq_refl).
Defined.
